(** * IHJS component tree: rendering model

    A shallow embedding of [src/ihjs/components/base.py],
    [src/ihjs/components/typography.py], the constructor helpers of
    [src/ihjs/__init__.py] and the page handling of [src/ihjs/cli.py], with
    the properties of [render] and of the harness proved or refuted on
    it. *)

From Stdlib Require Import String Ascii List ZArith Lia Bool DecimalString.
Import ListNotations.

Open Scope string_scope.

(** ** Python values *)

(** The double-quote character of the f-string [f'{k}="{v}"']. *)
Definition dquote_char : ascii := ascii_of_nat 34.
Definition dquote : string := String dquote_char EmptyString.

(** Scalar Python objects a keyword argument or an attribute can hold.
    Other objects (floats, lists, nested models) are left out of the model. *)
Inductive value : Type :=
| VNone
| VStr (s : string)
| VInt (z : Z)
| VBool (b : bool).

(** [str(v)], which is what [f'{v}'] inserts. *)
Definition py_str (v : value) : string :=
  match v with
  | VNone => "None"
  | VStr s => s
  | VInt z => NilZero.string_of_int (Z.to_int z)
  | VBool true => "True"
  | VBool false => "False"
  end.

(** [v is not None] *)
Definition is_not_none (v : value) : bool :=
  match v with
  | VNone => false
  | _ => true
  end.

(** ** The node type *)

(** The class of an instance together with the fields the class adds:
    [Text] adds [content], [Heading] adds [level] on top of it. *)
Inductive klass : Type :=
| KComponent
| KText (content : string)
| KHeading (content : string) (level : Z).

(** An instance after pydantic validation.  [tag], [children] and
    [class_name] are the fields declared by [Component]; [extra] holds, in
    insertion order, the keyword arguments kept by [extra="allow"]. *)
#[warnings="-register-all"]
Inductive Component : Type :=
  Node { tag : string;
         children : list Component;
         class_name : option string;
         extra : list (string * value);
         cls : klass }.

(** Structural induction that reaches the children. *)
Section ComponentInd.
Variable P : Component -> Prop.
Hypothesis step : forall t ch cn ex k, Forall P ch -> P (Node t ch cn ex k).

End ComponentInd.

(** ** model_dump *)

(** A declared or extra field of an instance: its Python name, the name it
    is dumped under with [by_alias=True], and its value. *)
Record field : Type :=
  Field { f_name : string; f_alias : string; f_value : value }.

Definition value_of_option (o : option string) : value :=
  match o with
  | Some s => VStr s
  | None => VNone
  end.

(** The fields of an instance in declaration order ([tag], [children],
    [class_name], then [content], then [level]), followed by the extras.
    [children] is left out: both calls of [model_dump] in the source exclude
    it, and its dumped value is a list of dictionaries, outside [value]. *)
Definition model_fields (n : Component) : list field :=
  [ Field "tag" "tag" (VStr (tag n));
    Field "class_name" "class" (value_of_option (class_name n)) ]
  ++ match cls n with
     | KComponent => []
     | KText c => [ Field "content" "content" (VStr c) ]
     | KHeading c l =>
         [ Field "content" "content" (VStr c); Field "level" "level" (VInt l) ]
     end
  ++ map (fun kv => Field (fst kv) (fst kv) (snd kv)) (extra n).

Definition excluded (exclude : list string) (f : field) : bool :=
  existsb (String.eqb (f_name f)) exclude.

(** [self.model_dump(exclude=..., by_alias=...)] as the list of its items,
    in order.  The dictionary the source gets holds one item per key, and
    the list is that dictionary whenever the dumped keys are distinct.  On
    a node the constructors build they are, except for a [Text] or a
    [Heading] that was given both [class] and [class_name]: the second is
    kept as an extra named like the field, and in the dictionary its value
    stands in the place of the field's. *)
Definition model_dump (exclude : list string) (by_alias : bool)
    (n : Component) : list (string * value) :=
  map (fun f => (if by_alias then f_alias f else f_name f, f_value f))
      (filter (fun f => negb (excluded exclude f)) (model_fields n)).

(** ** render *)

(** [f'{k}="{v}"'] *)
Definition attr_token (kv : string * value) : string :=
  fst kv ++ "=" ++ dquote ++ py_str (snd kv) ++ dquote.

(** [[f'{k}="{v}"' for k, v in d.items() if v is not None]] *)
Definition attr_tokens (d : list (string * value)) : list string :=
  map attr_token (filter (fun kv => is_not_none (snd kv)) d).

(** [" ".join([... for k, v in d.items() if v is not None])] *)
Definition props_of (d : list (string * value)) : string :=
  String.concat " " (attr_tokens d).

(** The dictionary each class's [render] serializes. *)
Definition render_dump (n : Component) : list (string * value) :=
  match cls n with
  | KComponent => model_dump ["children"; "tag"] true n
  | _ => model_dump ["children"; "tag"; "content"] false n
  end.

(** [Text.render], inherited by [Heading]; [c] is [self.content]. *)
Definition Text_render (n : Component) (c : string) : string :=
  let props := props_of (model_dump ["children"; "tag"; "content"] false n) in
  "<" ++ tag n ++ " " ++ props ++ ">" ++ c ++ "</" ++ tag n ++ ">".

(** [Component.render], given the rendered children. *)
Definition Component_render (n : Component) (children_html : string) : string :=
  let props := props_of (model_dump ["children"; "tag"] true n) in
  "<" ++ tag n ++ " " ++ props ++ ">" ++ children_html ++ "</" ++ tag n ++ ">".

(** [n.render()], dispatched on the class of [n]. *)
Fixpoint render (n : Component) : string :=
  match n with
  | Node _ ch _ _ k =>
      match k with
      | KComponent => Component_render n (String.concat EmptyString (map render ch))
      | KText c => Text_render n c
      | KHeading c _ => Text_render n c
      end
  end.

(** ** Construction *)

(** The exceptions a constructor call can raise. *)
Inductive error : Type :=
| TypeError (msg : string)
| ValidationError (msg : string).

Inductive result (A : Type) : Type :=
| Ok (a : A)
| Raise (e : error).
Arguments Ok {A} a.
Arguments Raise {A} e.

Definition bind {A B : Type} (r : result A) (f : A -> result B) : result B :=
  match r with
  | Ok a => f a
  | Raise e => Raise e
  end.

Notation "x <- r ;; k" := (bind r (fun x => k))
  (at level 61, r at next level, right associativity).

(** Scalar keyword arguments of a call, in the order they were written. *)
Definition kwargs : Type := list (string * value).

Fixpoint lookup (k : string) (kw : kwargs) : option value :=
  match kw with
  | [] => None
  | (k', v) :: kw' => if String.eqb k k' then Some v else lookup k kw'
  end.

Definition remove_key (k : string) (kw : kwargs) : kwargs :=
  filter (fun kv => negb (String.eqb k (fst kv))) kw.

Definition has_key (k : string) (kw : kwargs) : bool :=
  existsb (fun kv => String.eqb k (fst kv)) kw.

(** A call [f(k1=v1, ..., **kw)]: Python raises [TypeError] when a key of
    [kw] repeats one of the keywords written out. *)
Definition call_kw (explicit kw : kwargs) : result kwargs :=
  match find (fun kv => has_key (fst kv) kw) explicit with
  | Some (k, _) =>
      Raise (TypeError ("got multiple values for keyword argument '" ++ k ++ "'"))
  | None => Ok (explicit ++ kw)%list
  end.

(** The class whose constructor is called. *)
Inductive class_id : Type := CComponent | CText | CHeading.

(** The default of the [tag] field: ["div"] in [Component], overridden by
    ["span"] in [Text], which [Heading] inherits. *)
Definition default_tag (c : class_id) : string :=
  match c with
  | CComponent => "div"
  | CText | CHeading => "span"
  end.

Definition validate_str (name : string) (v : value) : result string :=
  match v with
  | VStr s => Ok s
  | _ => Raise (ValidationError (name ++ ": Input should be a valid string"))
  end.

Definition validate_optional_str (name : string) (v : value)
    : result (option string) :=
  match v with
  | VNone => Ok None
  | VStr s => Ok (Some s)
  | _ => Raise (ValidationError (name ++ ": Input should be a valid string"))
  end.

(** Only an [int] is taken for an [int] field here; pydantic's coercions
    from [bool] and numeric strings are not modelled. *)
Definition validate_int (name : string) (v : value) : result Z :=
  match v with
  | VInt z => Ok z
  | _ => Raise (ValidationError (name ++ ": Input should be a valid integer"))
  end.

(** The key under which [class_name] is found: its alias ["class"], or,
    with [populate_by_name=True], its name. *)
Definition class_key (data : kwargs) : option string :=
  if has_key "class" data then Some "class"
  else if has_key "class_name" data then Some "class_name"
  else None.

(** The keys of [data] that validation of the declared fields uses up. *)
Definition used_keys (c : class_id) (data : kwargs) : list string :=
  (["tag"; "children"]
   ++ match class_key data with Some k => [k] | None => [] end
   ++ match c with
      | CComponent => []
      | CText => ["content"]
      | CHeading => ["content"; "level"]
      end)%list.

(** [BaseModel.__init__] on the keyword dictionary [data], for the three
    model classes: validates the declared fields, applies defaults and
    keeps every other key as an extra.  [ch] is the [children] keyword,
    when given (a list of instances). *)
Definition BaseModel_init (c : class_id) (ch : option (list Component))
    (data : kwargs) : result Component :=
  t <- match lookup "tag" data with
       | Some v => validate_str "tag" v
       | None => Ok (default_tag c)
       end ;;
  chs <- match lookup "children" data with
         | Some _ => Raise (ValidationError "children: Input should be a valid list")
         | None => Ok (match ch with Some l => l | None => [] end)
         end ;;
  cn <- match class_key data with
        | Some k =>
            match lookup k data with
            | Some v => validate_optional_str "class" v
            | None => Ok None
            end
        | None => Ok None
        end ;;
  k <- match c with
       | CComponent => Ok KComponent
       | CText =>
           match lookup "content" data with
           | Some v => s <- validate_str "content" v ;; Ok (KText s)
           | None => Raise (ValidationError "content: Field required")
           end
       | CHeading =>
           match lookup "content" data with
           | Some v =>
               s <- validate_str "content" v ;;
               l <- match lookup "level" data with
                    | Some lv => validate_int "level" lv
                    | None => Ok 1%Z
                    end ;;
               Ok (KHeading s l)
           | None => Raise (ValidationError "content: Field required")
           end
       end ;;
  Ok (Node t chs cn
        (filter (fun kv => negb (existsb (String.eqb (fst kv)) (used_keys c data)))
                data)
        k).

(** [Component(children=ch, **args)] *)
Definition Component_new (ch : option (list Component)) (args : kwargs)
    : result Component :=
  BaseModel_init CComponent ch args.

(** [Text.__init__(self, content, **kwargs)] for the class [c] of [self]:
    binds [self] and the required parameter [content], then calls
    [super().__init__(content=content, **kwargs)].  The instance is bound
    to [self] already, so a keyword named [self] cannot be bound and the
    call raises [TypeError]. *)
Definition Text_init (c : class_id) (ch : option (list Component))
    (args : kwargs) : result Component :=
  match lookup "content" args with
  | None =>
      Raise (TypeError "__init__() missing 1 required positional argument: 'content'")
  | Some content =>
      if has_key "self" args then
        Raise (TypeError "__init__() got multiple values for argument 'self'")
      else
        data <- call_kw [("content", content)] (remove_key "content" args) ;;
        BaseModel_init c ch data
  end.

(** [Text(children=ch, **args)] *)
Definition Text_new (ch : option (list Component)) (args : kwargs)
    : result Component :=
  Text_init CText ch args.

(** The value bound to the parameter [level=1] of [Heading.__init__]. *)
Definition level_arg (args : kwargs) : value :=
  match lookup "level" args with
  | Some l => l
  | None => VInt 1
  end.

(** [Heading.__init__(self, content, level=1, **kwargs)]: binds [self],
    [content] and [level], then calls
    [super().__init__(content=content, tag=f"h{level}", **kwargs)].  As for
    [Text], a keyword named [self] raises [TypeError]. *)
Definition Heading_init (ch : option (list Component)) (args : kwargs)
    : result Component :=
  match lookup "content" args with
  | None =>
      Raise (TypeError "__init__() missing 1 required positional argument: 'content'")
  | Some content =>
      if has_key "self" args then
        Raise (TypeError "__init__() got multiple values for argument 'self'")
      else
        let level := level_arg args in
        let kw := remove_key "level" (remove_key "content" args) in
        args' <- call_kw [("content", content); ("tag", VStr ("h" ++ py_str level))] kw ;;
        Text_init CHeading ch args'
  end.

(** [Heading(children=ch, **args)] *)
Definition Heading_new (ch : option (list Component)) (args : kwargs)
    : result Component :=
  Heading_init ch args.

(** The helpers of [ihjs/__init__.py]. *)

(** [text(content, **kwargs)] *)
Definition text (content : value) (ch : option (list Component)) (kw : kwargs)
    : result Component :=
  args <- call_kw [("content", content)] kw ;;
  Text_new ch args.

(** [heading(content, level=1, **kwargs)]; [level] is [None] when omitted. *)
Definition heading (content : value) (level : option value)
    (ch : option (list Component)) (kw : kwargs) : result Component :=
  let level := match level with Some l => l | None => VInt 1 end in
  args <- call_kw [("content", content); ("level", level)] kw ;;
  Heading_new ch args.

(** [div], called with the keywords [kw]: [Component(tag="div", ...)]. *)
Definition div (ch : option (list Component)) (kw : kwargs)
    : result Component :=
  args <- call_kw [("tag", VStr "div")] kw ;;
  Component_new ch args.

(** ** Depth-bounded evaluation and the shape of the output *)








(** What [render] puts between the opening and the closing tag. *)
Definition inner_html (n : Component) : string :=
  match cls n with
  | KComponent => String.concat EmptyString (map render (children n))
  | KText c => c
  | KHeading c _ => c
  end.


(** ** Substrings *)

Definition Contains (sub s : string) : Prop :=
  exists a b, s = a ++ sub ++ b.

Definition StartsWith (p s : string) : Prop :=
  exists b, s = p ++ b.

Definition EndsWith (q s : string) : Prop :=
  exists a, s = a ++ q.

(** [sub in s] *)
Fixpoint containsb (sub s : string) : bool :=
  String.prefix sub s
  || match s with
     | EmptyString => false
     | String _ s' => containsb sub s'
     end.

(** [s] holds no double-quote character, as is the case of every Python
    identifier. *)
Fixpoint no_dquote (s : string) : bool :=
  match s with
  | EmptyString => true
  | String c s' => negb (Ascii.eqb c dquote_char) && no_dquote s'
  end.

(** ** Trees used as examples *)

(** [name="value"] as it appears in the output. *)
Definition attr (name val : string) : string :=
  name ++ "=" ++ dquote ++ val ++ dquote.

(** [Text(content="hi", class_name="x")] *)
Definition text_with_class : result Component :=
  Text_new None [("content", VStr "hi"); ("class_name", VStr "x")].

(** [Component(tag="div", class_name="a", children=[Text(content="hello")])] *)
Definition div_hello : result Component :=
  t <- Text_new None [("content", VStr "hello")] ;;
  Component_new (Some [t]) [("tag", VStr "div"); ("class_name", VStr "a")].

(** [Text(content="hi")], as an instance. *)
Definition text_hi : Component := Node "span" [] None [] (KText "hi").

(** [Component()], as an instance. *)
Definition empty_div : Component := Node "div" [] None [] KComponent.

(** The child-ordering equation with the opening tag written [<tag>]. *)
Definition children_spliced_after_bare_tag (t : string) (A B : Component) : Prop :=
  render (Node t [A; B] None [] KComponent)
  = "<" ++ t ++ ">" ++ render A ++ render B ++ "</" ++ t ++ ">".

(** Content isolation put as a substring test on the output. *)
Definition child_output_absent (c : Component) : Prop :=
  let out := render (Node "span" [c] None [] (KText "hi")) in
  Contains "hi" out /\ ~ Contains (render c) out.

(** [Heading(content="x", level=3, tag="p")] *)
Definition heading_with_tag : result Component :=
  Heading_new None [("content", VStr "x"); ("level", VInt 3); ("tag", VStr "p")].

(** [heading("x", level=3)] *)
Definition heading_level3 : result Component :=
  heading (VStr "x") (Some (VInt 3)) None [].

(** [Component(id="main", title=None)] *)
Definition div_unset_title : Component :=
  Node "div" [] None [("id", VStr "main"); ("title", VNone)] KComponent.

(** ** The development server and the build command ([cli.py]) *)

Definition nl : string := String (ascii_of_nat 10) EmptyString.

(** [SCRIPT_AUTORELOAD], line by line. *)
Definition SCRIPT_AUTORELOAD : string :=
  nl ++
  "<script>" ++
  nl ++
  "    (function() {" ++
  nl ++
  "        var ws = new WebSocket(" ++ dquote ++ "ws://" ++ dquote ++ " + window.location.host + " ++ dquote ++ "/ws" ++ dquote ++ ");" ++
  nl ++
  "        ws.onmessage = function(event) {" ++
  nl ++
  "            if (event.data === " ++ dquote ++ "reload" ++ dquote ++ ") {" ++
  nl ++
  "                console.log(" ++ dquote ++ "File changed. Reloading website." ++ dquote ++ ");" ++
  nl ++
  "                window.location.reload();" ++
  nl ++
  "            }" ++
  nl ++
  "        };" ++
  nl ++
  "        ws.onclose = function() {" ++
  nl ++
  "            console.log(" ++ dquote ++ "Connection lost. Trying to reconnect after 2s..." ++ dquote ++ ");" ++
  nl ++
  "            setTimeout(() => window.location.reload(), 2000);" ++
  nl ++
  "        };" ++
  nl ++
  "    })();" ++
  nl ++
  "</script>" ++
  nl.

(** [s.replace(old, new)] for a non-empty [old], scanning from the left:
    at an occurrence of [old] the output takes [new] and the next [skip]
    characters, the rest of the occurrence, are passed over. *)
Fixpoint replace_from (skip : nat) (old new s : string) : string :=
  match s with
  | EmptyString => EmptyString
  | String c s' =>
      match skip with
      | S k => replace_from k old new s'
      | O =>
          if String.prefix old s
          then new ++ replace_from (String.length old - 1) old new s'
          else String c (replace_from 0 old new s')
      end
  end.

(** [s.replace(old, new)]; an empty [old] matches before every character
    and at the end. *)
Definition replace (old new s : string) : string :=
  match old with
  | EmptyString =>
      new ++ (fix between (r : string) : string :=
                match r with
                | EmptyString => EmptyString
                | String c r' => String c (new ++ between r')
                end) s
  | String _ _ => replace_from 0 old new s
  end.

(** [s.count(old)] for a non-empty [old]: the occurrences [replace] finds,
    counted with the same scan. *)
Fixpoint count_from (skip : nat) (old s : string) : nat :=
  match s with
  | EmptyString => 0
  | String c s' =>
      match skip with
      | S k => count_from k old s'
      | O =>
          if String.prefix old s
          then S (count_from (String.length old - 1) old s')
          else count_from 0 old s'
      end
  end.

(** What [homepage] does to the rendered page before sending it:
    [if "</body>" in html: html = html.replace(...) else: html += ...]. *)
Definition inject_autoreload (html : string) : string :=
  if containsb "</body>" html
  then replace "</body>" (SCRIPT_AUTORELOAD ++ "</body>") html
  else html ++ SCRIPT_AUTORELOAD.

(** A raised exception: its class and [str(e)]. *)
Record exception : Type :=
  Exception { exc_type : string; exc_message : string }.

(** What a call that may raise comes back with. *)
Inductive outcome (A : Type) : Type :=
| Returned (a : A)
| Raised (e : exception).
Arguments Returned {A} a.
Arguments Raised {A} e.

(** The user's module as the harness looks at it: [index] is [None] when
    the module has no attribute [index], and otherwise what [index()] comes
    back with, a root node or an exception.  An [index()] that returns an
    object without [render] counts as raising, since [page.render()] then
    raises inside the same [try]. *)
Record user_module : Type :=
  UserModule { index : option (outcome Component) }.

(** The part of the interpreter [get_user_module] reads and writes:
    [sys.path] and the names registered in [sys.modules]. *)
Record interpreter : Type :=
  Interpreter { sys_path : list string; sys_modules : list string }.

(** The application file: [str(path)], [path.stem] and
    [str(path.parent.resolve())]. *)
Record app_file : Type :=
  AppFile { path : string; stem : string; parent_dir : string }.

(** What the import machinery answers at the time of a call: whether
    [spec_from_file_location] finds a loader, and what executing the module
    body ([exec_module], or [importlib.reload]) comes back with. *)
Record import_env : Type :=
  ImportEnv { spec_found : bool; run : outcome user_module }.

(** [x in l] for a list of strings. *)
Definition mem (x : string) (l : list string) : bool :=
  existsb (String.eqb x) l.

(** [get_user_module(path)], threading the interpreter state. *)
Definition get_user_module (f : app_file) (env : import_env)
    (st : interpreter) : outcome user_module * interpreter :=
  let module_name := stem f in
  let user_dir := parent_dir f in
  let sp := if mem user_dir (sys_path st) then sys_path st
            else user_dir :: sys_path st in
  if mem module_name (sys_modules st) then
    (run env, Interpreter sp (sys_modules st))
  else if spec_found env then
    (run env, Interpreter sp (module_name :: sys_modules st))
  else
    (Raised (Exception "ImportError" ("Can't load " ++ path f)),
     Interpreter sp (sys_modules st)).

(** [load_user_app(path)] for an existing file, threading the interpreter
    state; [None] stands for [typer.Exit(code=1)]. *)
Definition load_user_app (f : app_file) (file_exists : bool) (env : import_env)
    (st : interpreter) : option (outcome user_module) * interpreter :=
  if negb file_exists then (None, st)
  else
    let st' := Interpreter (parent_dir f :: sys_path st) (sys_modules st) in
    if spec_found env then (Some (run env), st') else (None, st').












(** * Properties *)

(** ** Strings *)

Lemma append_nil_r (s : string) : s ++ EmptyString = s.
Proof. induction s as [|a s IH]; simpl; [reflexivity | now rewrite IH]. Qed.

Lemma append_assoc (a b c : string) : (a ++ b) ++ c = a ++ b ++ c.
Proof. induction a as [|x a IH]; simpl; [reflexivity | now rewrite IH]. Qed.

Lemma prefix_StartsWith (p s : string) :
  String.prefix p s = true <-> StartsWith p s.
Proof.
  revert s; induction p as [|a p IH]; intros s.
  - split; intros _; [exists s; reflexivity | destruct s; reflexivity].
  - destruct s as [|b s]; simpl.
    + split; [discriminate | intros [r H]; discriminate].
    + destruct (ascii_dec a b) as [->|Hne].
      * rewrite IH. split; intros [r H]; exists r.
        -- simpl; now rewrite H.
        -- simpl in H; now injection H.
      * split; [discriminate | intros [r H]; simpl in H; injection H; intros; congruence].
Qed.

Lemma containsb_Contains (sub s : string) :
  containsb sub s = true <-> Contains sub s.
Proof.
  induction s as [|c s IH]; cbn [containsb].
  - rewrite orb_false_r, prefix_StartsWith. split.
    + intros [b H]. exists EmptyString, b. exact H.
    + intros [a [b H]]. destruct a; simpl in H.
      * exists b; exact H.
      * discriminate.
  - rewrite orb_true_iff, IH. split.
    + intros [H | [a [b H]]].
      * apply prefix_StartsWith in H. destruct H as [b H]. exists EmptyString, b. exact H.
      * exists (String c a), b. simpl. now rewrite H.
    + intros [a [b H]]. destruct a as [|x a]; simpl in H.
      * left. apply prefix_StartsWith. exists b. exact H.
      * right. injection H as _ H. exists a, b. exact H.
Qed.

Lemma Contains_middle (a sub b : string) : Contains sub (a ++ sub ++ b).
Proof. exists a, b; reflexivity. Qed.

Lemma Contains_app_l (x s sub : string) : Contains sub s -> Contains sub (x ++ s).
Proof.
  intros [a [b ->]]. exists (x ++ a), b. now rewrite append_assoc.
Qed.

Lemma Contains_app_r (s x sub : string) : Contains sub s -> Contains sub (s ++ x).
Proof.
  intros [a [b ->]]. exists a, (b ++ x). now rewrite !append_assoc.
Qed.

(** ** Attribute serialization *)

Lemma concat_cons_Contains (sep x : string) (l : list string) :
  Contains x (String.concat sep (x :: l)).
Proof.
  destruct l as [|y l]; simpl.
  - exists EmptyString, EmptyString. now rewrite append_nil_r.
  - exists EmptyString, (sep ++ String.concat sep (y :: l)). reflexivity.
Qed.

(** X1: [Component.render] dumps with [by_alias=True]: a set [class_name] is
    written under the name [class]. *)
Lemma Component_render_aliases_class (t : string) (ch : list Component)
    (x : string) (ex : list (string * value)) :
  Contains (attr "class" x) (render (Node t ch (Some x) ex KComponent)).
Proof.
  unfold attr. cbn [render]. unfold Component_render.
  apply Contains_app_l, Contains_app_l, Contains_app_l, Contains_app_r.
  unfold props_of, attr_tokens, model_dump, model_fields.
  cbn -[String.concat attr_token String.eqb].
  apply (concat_cons_Contains " " (attr_token ("class", VStr x))).
Qed.

(** C1, evaluated on [Text(content="hi", class_name="x")]: [Text.render]
    dumps without [by_alias], so the output is
    [<span class_name="x">hi</span>]; it contains [class_name="x"] and does
    not contain [class="x"]. *)
Theorem C1_text_render_keeps_class_name :
  exists n,
    text_with_class = Ok n
    /\ render n = "<span " ++ attr "class_name" "x" ++ ">hi</span>"
    /\ containsb (attr "class_name" "x") (render n) = true
    /\ containsb (attr "class" "x") (render n) = false.
Proof.
  eexists. split; [reflexivity|]. repeat split; vm_compute; reflexivity.
Qed.

(** ** The end-to-end example *)

(** C2 as stated fails: the tree does not render
    [<div class="a"><span>hello</span></div>]. *)
Lemma C2_counterexample :
  exists n,
    div_hello = Ok n
    /\ render n <> "<div " ++ attr "class" "a" ++ "><span>hello</span></div>".
Proof.
  eexists. split; [reflexivity|]. apply String.eqb_neq. vm_compute. reflexivity.
Qed.

(** C2, amended: [Component(tag="div", class_name="a",
    children=[Text(content="hello")])] renders exactly
    [<div class="a"><span >hello</span></div>]; the tag name of the text
    node is followed by the space of the template. *)
Theorem C2_div_hello_render :
  exists n,
    div_hello = Ok n
    /\ render n = "<div " ++ attr "class" "a" ++ "><span >hello</span></div>".
Proof.
  eexists. split; [reflexivity|]. vm_compute. reflexivity.
Qed.

(** ** Children *)

(** C3 as stated fails: with children [Text(content="hi")] and
    [Component()], the output of [Component(children=[A, B])] is not
    ["<div>" + A.render() + B.render() + "</div>"]. *)
Lemma C3_counterexample :
  ~ children_spliced_after_bare_tag "div" text_hi empty_div.
Proof.
  unfold children_spliced_after_bare_tag. apply String.eqb_neq.
  vm_compute. reflexivity.
Qed.

(** C3, amended: [Component(children=[A, B]).render()] is the opening tag
    [<tag props>], where a space always follows the tag name, then
    [A.render()], then [B.render()], with nothing between them, then
    [</tag>]; with no attribute set the opening tag is [<tag >]. *)
Theorem C3_children_in_order (t : string) (cn : option string)
    (ex : list (string * value)) (A B : Component) :
  render (Node t [A; B] cn ex KComponent)
  = "<" ++ t ++ " "
        ++ props_of (model_dump ["children"; "tag"] true
                       (Node t [A; B] cn ex KComponent))
        ++ ">" ++ render A ++ render B ++ "</" ++ t ++ ">"
  /\ render (Node t [A; B] None [] KComponent)
     = "<" ++ t ++ " >" ++ render A ++ render B ++ "</" ++ t ++ ">".
Proof.
  assert (Hjoin : String.concat EmptyString [render A; render B] = render A ++ render B)
    by reflexivity.
  split.
  - cbn [render]. unfold Component_render. cbn [tag map].
    now rewrite Hjoin, !append_assoc.
  - cbn [render]. unfold Component_render. cbn [tag map].
    rewrite Hjoin, !append_assoc. reflexivity.
Qed.

(** C4 as stated fails: for the child [Text(content="hi")], the output of
    [Text(content="hi", children=[child])] is [<span >hi</span>], which is
    the child's own output, so it does contain it. *)
Lemma C4_counterexample : ~ child_output_absent text_hi.
Proof.
  intros [_ H]. apply H. apply containsb_Contains. vm_compute. reflexivity.
Qed.

(** C4, amended: [render] of a text or heading node ignores [children]: the
    output is the same as with no children at all, it is
    [<tag props>content</tag>] with [content] verbatim, and so contains
    [content]. *)
Theorem C4_text_ignores_children (t : string) (ch : list Component)
    (cn : option string) (ex : list (string * value)) (c : string) (l : Z) :
  (render (Node t ch cn ex (KText c)) = render (Node t [] cn ex (KText c))
   /\ render (Node t ch cn ex (KText c))
      = "<" ++ t ++ " "
            ++ props_of (model_dump ["children"; "tag"; "content"] false
                           (Node t [] cn ex (KText c)))
            ++ ">" ++ c ++ "</" ++ t ++ ">"
   /\ Contains c (render (Node t ch cn ex (KText c))))
  /\ (render (Node t ch cn ex (KHeading c l))
      = render (Node t [] cn ex (KHeading c l))
      /\ Contains c (render (Node t ch cn ex (KHeading c l)))).
Proof.
  repeat split; try reflexivity.
  - cbn [render]. unfold Text_render.
    do 4 apply Contains_app_l. apply Contains_middle.
  - cbn [render]. unfold Text_render.
    do 4 apply Contains_app_l. apply Contains_middle.
Qed.

(** ** Unset attributes *)

Lemma attr_tokens_app (l1 l2 : list (string * value)) :
  attr_tokens (l1 ++ l2)%list = (attr_tokens l1 ++ attr_tokens l2)%list.
Proof. unfold attr_tokens. now rewrite filter_app, map_app. Qed.

Lemma attr_tokens_skip_none (l1 l2 : list (string * value)) (k : string) :
  attr_tokens (l1 ++ (k, VNone) :: l2)%list = attr_tokens (l1 ++ l2)%list.
Proof.
  rewrite !attr_tokens_app. f_equal.
Qed.

Lemma attr_tokens_origin (d : list (string * value)) (tok : string) :
  In tok (attr_tokens d) ->
  exists k v, In (k, v) d /\ v <> VNone /\ tok = attr_token (k, v).
Proof.
  unfold attr_tokens. intros H. apply in_map_iff in H.
  destruct H as [[k v] [Htok Hin]]. apply filter_In in Hin.
  destruct Hin as [Hin Hset]. exists k, v. repeat split; auto.
  intros ->. discriminate Hset.
Qed.

(** The common template of the two [render] methods. *)
Lemma render_template (n : Component) :
  render n
  = "<" ++ tag n ++ " " ++ props_of (render_dump n) ++ ">"
        ++ inner_html n ++ "</" ++ tag n ++ ">".
Proof. destruct n as [t ch cn ex []]; reflexivity. Qed.

Lemma first_dquote (a b x y : string) :
  no_dquote a = true -> no_dquote b = true ->
  a ++ "=" ++ String dquote_char x = b ++ "=" ++ String dquote_char y ->
  a = b.
Proof.
  revert b. induction a as [|c a IH]; intros [|d b] Ha Hb H.
  - reflexivity.
  - exfalso. cbn [append] in H. injection H as Hd H. subst d.
    destruct b as [|e b]; cbn [append] in H.
    + discriminate H.
    + injection H as He _. subst e. cbn [no_dquote] in Hb.
      rewrite Ascii.eqb_refl in Hb. rewrite andb_false_r in Hb. discriminate Hb.
  - exfalso. cbn [append] in H. injection H as Hc H. subst c.
    destruct a as [|e a]; cbn [append] in H.
    + discriminate H.
    + injection H as He _. subst e. cbn [no_dquote] in Ha.
      rewrite Ascii.eqb_refl in Ha. rewrite andb_false_r in Ha. discriminate Ha.
  - cbn [append] in H. injection H as -> H.
    cbn [no_dquote] in Ha, Hb.
    apply andb_true_iff in Ha as [_ Ha]. apply andb_true_iff in Hb as [_ Hb].
    f_equal. now apply IH.
Qed.

Lemma NoDup_keys_value (d : list (string * value)) (k : string) (v v' : value) :
  NoDup (map fst d) -> In (k, v) d -> In (k, v') d -> v = v'.
Proof.
  induction d as [|[k0 v0] d IH]; intros Hnd Hv Hv'; [contradiction|].
  cbn [map fst] in Hnd. inversion Hnd as [|? ? Hnotin Hnd']; subst.
  destruct Hv as [Hv|Hv], Hv' as [Hv'|Hv'].
  - congruence.
  - injection Hv as -> ->. exfalso. apply Hnotin.
    apply (in_map fst) in Hv'. exact Hv'.
  - injection Hv' as -> ->. exfalso. apply Hnotin.
    apply (in_map fst) in Hv. exact Hv.
  - now apply IH.
Qed.

(** C5: an attribute whose value is [None] is omitted from the output of
    every node.  When the dictionary a node serializes holds [k: None], the
    output is the one built from the dictionary without that entry, so
    nothing stands in for it, not even a separator, and every attribute
    token of the opening tag comes from another entry, one whose value is
    not [None].  With the keys of the dictionary distinct and free of
    double quotes, no attribute token begins with [k=] and a
    double quote: neither the token with the empty value nor [k="None"]
    nor any other token for [k] is written. *)
Theorem C5_unset_attribute_omitted (n : Component)
    (l1 l2 : list (string * value)) (k : string) :
  render_dump n = (l1 ++ (k, VNone) :: l2)%list ->
  render n
  = "<" ++ tag n ++ " " ++ props_of (l1 ++ l2)%list ++ ">"
        ++ inner_html n ++ "</" ++ tag n ++ ">"
  /\ (forall tok, In tok (attr_tokens (render_dump n)) ->
       exists k' v',
         In (k', v') (l1 ++ l2)%list /\ v' <> VNone /\ tok = attr_token (k', v'))
  /\ (NoDup (map fst (render_dump n)) ->
      Forall (fun kv => no_dquote (fst kv) = true) (render_dump n) ->
      forall tok, In tok (attr_tokens (render_dump n)) ->
        ~ StartsWith (k ++ "=" ++ dquote) tok).
Proof.
  intros Hd. split; [|split].
  - rewrite render_template, Hd. unfold props_of.
    now rewrite attr_tokens_skip_none.
  - intros tok Htok. rewrite Hd, attr_tokens_skip_none in Htok.
    now apply attr_tokens_origin.
  - intros Hnd Hkeys tok Htok [b Hb].
    apply attr_tokens_origin in Htok as [k' [v' [Hin [Hset ->]]]].
    assert (Hk : In (k, VNone) (render_dump n))
      by (rewrite Hd; apply in_elt).
    rewrite Forall_forall in Hkeys.
    assert (k' = k) as ->.
    { unfold attr_token, dquote in Hb. cbn [fst snd] in Hb.
      rewrite !append_assoc in Hb.
      apply first_dquote in Hb; [exact Hb| |].
      - apply (Hkeys _ Hin).
      - apply (Hkeys _ Hk). }
    apply Hset. symmetry. exact (NoDup_keys_value _ _ _ _ Hnd Hk Hin).
Qed.

Lemma C5_unset_attribute_omitted_witness :
  render_dump div_unset_title
  = ([("class", VNone); ("id", VStr "main")] ++ ("title", VNone) :: [])%list
  /\ render div_unset_title
     = "<" ++ tag div_unset_title ++ " "
           ++ props_of ([("class", VNone); ("id", VStr "main")] ++ [])%list
           ++ ">" ++ inner_html div_unset_title
           ++ "</" ++ tag div_unset_title ++ ">"
  /\ forall tok, In tok (attr_tokens (render_dump div_unset_title)) ->
       ~ StartsWith ("title" ++ "=" ++ dquote) tok.
Proof.
  split; [reflexivity|].
  destruct (C5_unset_attribute_omitted div_unset_title
              [("class", VNone); ("id", VStr "main")] [] "title" eq_refl)
    as [Hout [_ Hnone]].
  split; [exact Hout|]. apply Hnone.
  - repeat constructor; cbn; intuition discriminate.
  - repeat constructor.
Defined.

(** ** Constructors *)

Lemma bind_Ok {A B : Type} (r : result A) (f : A -> result B) (b : B) :
  bind r f = Ok b -> exists a, r = Ok a /\ f a = Ok b.
Proof. destruct r as [a|e]; simpl; [eauto | discriminate]. Qed.

Lemma has_key_remove_key (k k' : string) (kw : kwargs) :
  has_key k (remove_key k' kw) = negb (String.eqb k k') && has_key k kw.
Proof.
  unfold has_key, remove_key.
  induction kw as [|[k0 v] kw IH]; cbn [filter existsb fst].
  - now rewrite andb_false_r.
  - destruct (String.eqb_spec k' k0) as [->|Hne]; cbn [negb existsb fst].
    + rewrite IH. destruct (String.eqb k k0); reflexivity.
    + rewrite IH.
      destruct (String.eqb k k') eqn:E1, (String.eqb k k0) eqn:E2;
        cbn; try reflexivity.
      apply String.eqb_eq in E1, E2. congruence.
Qed.

Lemma lookup_remove_key_same (k : string) (kw : kwargs) :
  lookup k (remove_key k kw) = None.
Proof.
  unfold remove_key.
  induction kw as [|[k0 v] kw IH]; cbn [filter lookup fst]; [reflexivity|].
  destruct (String.eqb_spec k k0) as [->|Hne]; cbn [negb]; [exact IH|].
  cbn [lookup]. apply String.eqb_neq in Hne. now rewrite Hne.
Qed.

Lemma lookup_remove_key_other (k k' : string) (kw : kwargs) :
  k <> k' -> lookup k (remove_key k' kw) = lookup k kw.
Proof.
  intros Hkk. unfold remove_key.
  induction kw as [|[k0 v] kw IH]; cbn [filter lookup fst]; [reflexivity|].
  destruct (String.eqb_spec k' k0) as [->|Hne]; cbn [negb].
  - apply String.eqb_neq in Hkk. now rewrite Hkk.
  - cbn [lookup]. now rewrite IH.
Qed.

Lemma BaseModel_init_tag (c : class_id) (ch : option (list Component))
    (data : kwargs) (t : string) (n : Component) :
  lookup "tag" data = Some (VStr t) ->
  BaseModel_init c ch data = Ok n -> tag n = t.
Proof.
  intros Ht H. unfold BaseModel_init in H. rewrite Ht in H.
  cbn [validate_str bind] in H.
  apply bind_Ok in H as [chs [_ H]]. apply bind_Ok in H as [cn [_ H]].
  apply bind_Ok in H as [k [_ H]]. now injection H as <-.
Qed.

Lemma BaseModel_init_text (ch : option (list Component)) (data : kwargs)
    (v : value) (n : Component) :
  lookup "content" data = Some v ->
  BaseModel_init CText ch data = Ok n ->
  exists s, v = VStr s /\ cls n = KText s.
Proof.
  intros Hc H. unfold BaseModel_init in H.
  apply bind_Ok in H as [t [_ H]]. apply bind_Ok in H as [chs [_ H]].
  apply bind_Ok in H as [cn [_ H]]. apply bind_Ok in H as [k [Hk H]].
  rewrite Hc in Hk. destruct v; try discriminate Hk.
  cbn in Hk. injection Hk as <-. injection H as <-. eauto.
Qed.

Lemma BaseModel_init_heading (ch : option (list Component)) (data : kwargs)
    (v : value) (n : Component) :
  lookup "content" data = Some v ->
  lookup "level" data = None ->
  BaseModel_init CHeading ch data = Ok n ->
  exists s, v = VStr s /\ cls n = KHeading s 1.
Proof.
  intros Hc Hl H. unfold BaseModel_init in H.
  apply bind_Ok in H as [t [_ H]]. apply bind_Ok in H as [chs [_ H]].
  apply bind_Ok in H as [cn [_ H]]. apply bind_Ok in H as [k [Hk H]].
  rewrite Hc, Hl in Hk. destruct v; try discriminate Hk.
  cbn in Hk. injection Hk as <-. injection H as <-. eauto.
Qed.

Lemma remove_key_cons (k k0 : string) (v : value) (kw : kwargs) :
  remove_key k ((k0, v) :: kw)
  = if String.eqb k k0 then remove_key k kw else (k0, v) :: remove_key k kw.
Proof.
  unfold remove_key. cbn [filter fst]. now destruct (String.eqb k k0).
Qed.

(** Decides the comparisons of two literal keys in the goal. *)
Ltac key_eqb :=
  repeat match goal with
    | |- context [String.eqb ?a ?b] =>
        let r := eval vm_compute in (String.eqb a b) in
        match r with
        | true => change (String.eqb a b) with true
        | false => change (String.eqb a b) with false
        end
    end;
  cbn [negb andb orb].

Lemma has_key_cons (k k0 : string) (v : value) (kw : kwargs) :
  has_key k ((k0, v) :: kw) = String.eqb k k0 || has_key k kw.
Proof. reflexivity. Qed.

Lemma Text_init_eq (c : class_id) (ch : option (list Component))
    (args : kwargs) (content : value) :
  lookup "content" args = Some content ->
  has_key "self" args = false ->
  Text_init c ch args
  = BaseModel_init c ch (("content", content) :: remove_key "content" args).
Proof.
  intros Hc Hself. unfold Text_init. rewrite Hc, Hself.
  unfold call_kw. cbn [find fst].
  rewrite has_key_remove_key. key_eqb. reflexivity.
Qed.

(** A keyword named [self] makes [Text(...)] and [Heading(...)] raise
    [TypeError], whatever else is passed. *)
Lemma init_self_keyword (ch : option (list Component)) (args : kwargs) :
  has_key "self" args = true ->
  (exists msg, Text_new ch args = Raise (TypeError msg))
  /\ (exists msg, Heading_new ch args = Raise (TypeError msg)).
Proof.
  intros Hself. unfold Text_new, Heading_new, Text_init, Heading_init.
  rewrite Hself. destruct (lookup "content" args); eauto.
Qed.

(** With a [content] keyword and no [tag] keyword, [Heading(...)] hands the
    model [content], [tag=f"h{level}"] and the other keywords, [level] not
    among them. *)
Lemma Heading_init_eq (ch : option (list Component)) (args : kwargs)
    (content : value) :
  lookup "content" args = Some content ->
  has_key "self" args = false ->
  has_key "tag" args = false ->
  Heading_init ch args
  = BaseModel_init CHeading ch
      (("content", content)
         :: ("tag", VStr ("h" ++ py_str (level_arg args)))
         :: remove_key "content" (remove_key "level" (remove_key "content" args))).
Proof.
  intros Hc Hself Htag. unfold Heading_init. rewrite Hc, Hself. cbv zeta.
  unfold call_kw. cbn [find fst].
  rewrite !has_key_remove_key. key_eqb. rewrite Htag. cbn [bind app].
  rewrite (Text_init_eq _ _ _ content).
  - rewrite !remove_key_cons. key_eqb. reflexivity.
  - cbn [lookup]. key_eqb. reflexivity.
  - rewrite !has_key_cons, !has_key_remove_key. key_eqb. exact Hself.
Qed.

(** With a [tag] keyword, the call of [super().__init__] inside
    [Heading.__init__] passes [tag] twice and raises. *)
Lemma Heading_init_tag_clash (ch : option (list Component)) (args : kwargs)
    (content : value) :
  lookup "content" args = Some content ->
  has_key "self" args = false ->
  has_key "tag" args = true ->
  Heading_init ch args
  = Raise (TypeError "got multiple values for keyword argument 'tag'").
Proof.
  intros Hc Hself Htag. unfold Heading_init. rewrite Hc, Hself. cbv zeta.
  unfold call_kw. cbn [find fst].
  rewrite !has_key_remove_key. key_eqb. rewrite Htag. reflexivity.
Qed.


(** A successful [Heading(...)] call had a [content] keyword and no [tag]
    keyword; its [tag] is [f"h{level}"] and its [level] field is the
    default. *)
Lemma Heading_new_Ok (ch : option (list Component)) (args : kwargs)
    (n : Component) :
  Heading_new ch args = Ok n ->
  has_key "tag" args = false
  /\ tag n = "h" ++ py_str (level_arg args)
  /\ exists s, lookup "content" args = Some (VStr s) /\ cls n = KHeading s 1.
Proof.
  unfold Heading_new. intros H.
  destruct (lookup "content" args) as [v|] eqn:Hc.
  - destruct (has_key "self" args) eqn:Hself.
    { unfold Heading_init in H. rewrite Hc, Hself in H. discriminate H. }
    destruct (has_key "tag" args) eqn:Htag.
    + rewrite (Heading_init_tag_clash _ _ v Hc Hself Htag) in H.
      discriminate H.
    + rewrite (Heading_init_eq _ _ v Hc Hself Htag) in H.
      split; [reflexivity|]. split.
      * eapply BaseModel_init_tag; [|exact H].
        cbn [lookup]. key_eqb. reflexivity.
      * apply BaseModel_init_heading with (v := v) in H.
        -- destruct H as [s [-> Hk]]. eauto.
        -- cbn [lookup]. key_eqb. reflexivity.
        -- cbn [lookup]. key_eqb.
           rewrite lookup_remove_key_other by discriminate.
           apply lookup_remove_key_same.
  - unfold Heading_init in H. rewrite Hc in H. discriminate H.
Qed.

(** ** Headings *)

Lemma render_StartsWith (n : Component) : StartsWith ("<" ++ tag n) (render n).
Proof.
  rewrite render_template. eexists. rewrite append_assoc. reflexivity.
Qed.

Lemma render_EndsWith (n : Component) :
  EndsWith ("</" ++ tag n ++ ">") (render n).
Proof.
  rewrite render_template.
  exists ("<" ++ tag n ++ " " ++ props_of (render_dump n) ++ ">" ++ inner_html n).
  now rewrite !append_assoc.
Qed.

(** C6 as stated fails: [Heading(content="x", level=3, tag="p")] does not
    build a node tagged [h3]; the call raises [TypeError], because [tag]
    reaches [Text.__init__] twice. *)
Lemma C6_counterexample :
  heading_with_tag
  = Raise (TypeError "got multiple values for keyword argument 'tag'")
  /\ ~ exists n, heading_with_tag = Ok n /\ tag n = "h3".
Proof.
  split; [reflexivity|]. intros [n [H _]]. discriminate H.
Qed.

(** C6, amended: every heading the constructor builds has the tag
    [h{level}], for the [level] of the call, and its output begins with
    [<h{level}] and ends with [</h{level}>]; [level] is 1 when omitted, so
    the tag is then [h1]; with [level=3] the output begins with [<h3] and
    ends with [</h3>].  A call that passes [tag] builds no node: it raises
    [TypeError]. *)
Theorem C6_heading_tag_from_level (ch : option (list Component))
    (args : kwargs) :
  (forall n, Heading_new ch args = Ok n ->
     tag n = "h" ++ py_str (level_arg args)
     /\ StartsWith ("<h" ++ py_str (level_arg args)) (render n)
     /\ EndsWith ("</h" ++ py_str (level_arg args) ++ ">") (render n))
  /\ (lookup "level" args = None ->
      forall n, Heading_new ch args = Ok n -> tag n = "h1")
  /\ (lookup "level" args = Some (VInt 3) ->
      forall n, Heading_new ch args = Ok n ->
        StartsWith "<h3" (render n) /\ EndsWith "</h3>" (render n))
  /\ (has_key "tag" args = true ->
      exists msg, Heading_new ch args = Raise (TypeError msg)).
Proof.
  assert (Hgen : forall n, Heading_new ch args = Ok n ->
     tag n = "h" ++ py_str (level_arg args)
     /\ StartsWith ("<h" ++ py_str (level_arg args)) (render n)
     /\ EndsWith ("</h" ++ py_str (level_arg args) ++ ">") (render n)).
  { intros n H. apply Heading_new_Ok in H as [_ [Ht _]].
    split; [exact Ht|]. split.
    - pose proof (render_StartsWith n) as Hs. now rewrite Ht in Hs.
    - pose proof (render_EndsWith n) as He. now rewrite Ht in He. }
  split; [exact Hgen|]. split; [|split].
  - intros Hl n H. apply Hgen in H as [Ht _].
    unfold level_arg in Ht. now rewrite Hl in Ht.
  - intros Hl n H. apply Hgen in H as [_ Hse].
    unfold level_arg in Hse. now rewrite Hl in Hse.
  - intros Htag. unfold Heading_new.
    destruct (lookup "content" args) as [v|] eqn:Hc.
    + destruct (has_key "self" args) eqn:Hself.
      * unfold Heading_init. rewrite Hc, Hself. eauto.
      * rewrite (Heading_init_tag_clash _ _ v Hc Hself Htag). eauto.
    + unfold Heading_init. rewrite Hc. eauto.
Qed.

Lemma C6_heading_tag_from_level_witness :
  Heading_new None [("content", VStr "x"); ("level", VInt 3)]
  = Ok (Node "h3" [] None [] (KHeading "x" 1))
  /\ StartsWith "<h3" (render (Node "h3" [] None [] (KHeading "x" 1)))
  /\ EndsWith "</h3>" (render (Node "h3" [] None [] (KHeading "x" 1))).
Proof.
  split; [reflexivity|].
  apply (proj1 (proj2 (proj2
           (C6_heading_tag_from_level None
              [("content", VStr "x"); ("level", VInt 3)]))));
    reflexivity.
Defined.

Lemma concat_In_Contains (sep x : string) (l : list string) :
  In x l -> Contains x (String.concat sep l).
Proof.
  induction l as [|y l IH]; intros Hin; [contradiction|].
  destruct Hin as [->|Hin]; [apply concat_cons_Contains|].
  destruct l as [|z l]; [contradiction|].
  change (String.concat sep (y :: z :: l))
    with (y ++ sep ++ String.concat sep (z :: l)).
  apply Contains_app_l, Contains_app_l, IH, Hin.
Qed.

(** X3: Whatever [level] a heading was built with, its [level] field is 1 and
    the attribute written to the output is [level="1"]. *)
Lemma Heading_new_level_attribute (ch : option (list Component))
    (args : kwargs) (n : Component) :
  Heading_new ch args = Ok n ->
  Contains (attr "level" "1") (render n).
Proof.
  intros H. apply Heading_new_Ok in H as [_ [_ [s [_ Hk]]]].
  rewrite render_template.
  apply Contains_app_l, Contains_app_l, Contains_app_l, Contains_app_r.
  apply concat_In_Contains.
  change (attr "level" "1") with (attr_token ("level", VInt 1)).
  unfold attr_tokens. apply in_map, filter_In. split; [|reflexivity].
  destruct n as [t chs cn ex k]. cbn [cls] in Hk. subst k.
  unfold render_dump, model_dump, model_fields.
  cbn [cls tag class_name extra app filter excluded existsb f_name negb].
  key_eqb. cbn [map f_name f_value]. right. left. reflexivity.
Qed.

(** C10, evaluated on [heading("x", level=3)]: [Heading.__init__] uses
    [level] for the tag only and does not hand it to the model, so the
    [level] field keeps its default and the output is
    [<h3 level="1">x</h3>]; it does not contain [level="3"]. *)
Theorem C10_heading_level_attribute_is_default :
  exists n,
    heading_level3 = Ok n
    /\ cls n = KHeading "x" 1
    /\ render n = "<h3 " ++ attr "level" "1" ++ ">x</h3>"
    /\ containsb (attr "level" "3") (render n) = false.
Proof.
  eexists. split; [reflexivity|]. repeat split; vm_compute; reflexivity.
Qed.

(** ** Totality and shape *)















(** ** Construction errors *)



(** * Further properties of the component classes *)

Lemma extras_without_key (k : string) (P : field -> bool)
    (ex : list (string * value)) :
  ~ In k (map fst ex) ->
  filter (fun kv => String.eqb (fst kv) k)
    (map (fun f => (f_name f, f_value f))
       (filter P (map (fun kv => Field (fst kv) (fst kv) (snd kv)) ex)))
  = [].
Proof.
  induction ex as [|[k0 v0] ex IH]; intros Hk; [reflexivity|].
  cbn [map filter fst snd].
  assert (Hne : String.eqb k0 k = false).
  { apply String.eqb_neq. intros ->. apply Hk. now left. }
  assert (Hrest : ~ In k (map fst ex)) by (intros Hin; apply Hk; now right).
  destruct (P (Field k0 k0 v0)).
  - cbn [map filter fst f_name f_value]. rewrite Hne. now apply IH.
  - now apply IH.
Qed.

(** X2: [Text.render] and the [render] a [Heading] inherits write a set
    [class_name] under its Python name.  For a text or heading node with
    [class_name] set to [x] and no extra keyword of that name, the
    dictionary it serializes has one entry named [class_name], with the
    value [x], and the output contains [class_name="x"]. *)
Theorem Text_render_writes_class_name (t : string) (ch : list Component)
    (x : string) (ex : list (string * value)) (k : klass) :
  k <> KComponent ->
  ~ In "class_name" (map fst ex) ->
  filter (fun kv => String.eqb (fst kv) "class_name")
         (render_dump (Node t ch (Some x) ex k))
  = [("class_name", VStr x)]
  /\ Contains (attr "class_name" x) (render (Node t ch (Some x) ex k)).
Proof.
  intros Hk Hex. split.
  - destruct k as [|c|c l]; [contradiction| |];
      unfold render_dump, model_dump, model_fields;
      cbn [cls tag class_name extra app filter excluded existsb f_name negb
           value_of_option]; key_eqb; cbn [map f_name f_value filter fst];
      key_eqb; now rewrite extras_without_key.
  - rewrite render_template.
    apply Contains_app_l, Contains_app_l, Contains_app_l, Contains_app_r.
    apply concat_In_Contains.
    change (attr "class_name" x) with (attr_token ("class_name", VStr x)).
    unfold attr_tokens. apply in_map, filter_In. split; [|reflexivity].
    destruct k as [|c|c l]; [contradiction| |];
      unfold render_dump, model_dump, model_fields;
      cbn [cls tag class_name extra app filter excluded existsb f_name negb
           value_of_option]; key_eqb; cbn [map f_name f_value]; now left.
Qed.

Lemma Text_render_writes_class_name_witness :
  Contains (attr "class_name" "x")
    (render (Node "h2" [] (Some "x") [("id", VStr "top")] (KHeading "hi" 1))).
Proof.
  apply (Text_render_writes_class_name "h2" [] "x" [("id", VStr "top")]
           (KHeading "hi" 1)).
  - discriminate.
  - cbn. intuition discriminate.
Defined.

Lemma render_dump_extra (n : Component) (k : string) (v : value) :
  In (k, v) (extra n) ->
  ~ In k ["children"; "tag"; "content"] ->
  In (k, v) (render_dump n).
Proof.
  intros Hin Hk.
  assert (Hf : forall excl by_alias,
             (forall x, In x excl -> In x ["children"; "tag"; "content"]) ->
             In (k, v) (model_dump excl by_alias n)).
  { intros excl by_alias Hsub. unfold model_dump.
    apply in_map_iff. exists (Field k k v). split.
    - now destruct by_alias.
    - apply filter_In. split.
      + unfold model_fields. apply in_or_app. right. apply in_or_app. right.
        apply in_map_iff. exists (k, v). split; [reflexivity | exact Hin].
      + apply negb_true_iff. unfold excluded. cbn [f_name].
        destruct (existsb (String.eqb k) excl) eqn:E; [|reflexivity].
        apply existsb_exists in E as [x [Hx Heq]].
        apply String.eqb_eq in Heq. subst x. exfalso. apply Hk, Hsub, Hx. }
  unfold render_dump. destruct (cls n).
  - apply Hf. intros x Hx. cbn in *. intuition.
  - apply Hf. intros x Hx. exact Hx.
  - apply Hf. intros x Hx. exact Hx.
Qed.

(** X4: Every extra keyword a node holds with a value other than [None] is
    written to the output of [render] as [k="v"], with [str(v)] put between
    the quotes as it is: nothing is escaped, whatever characters the value
    holds. *)
Theorem extra_attribute_written_verbatim (n : Component) (k : string)
    (v : value) :
  In (k, v) (extra n) ->
  v <> VNone ->
  ~ In k ["children"; "tag"; "content"] ->
  Contains (k ++ "=" ++ dquote ++ py_str v ++ dquote) (render n).
Proof.
  intros Hin Hset Hk. rewrite render_template.
  apply Contains_app_l, Contains_app_l, Contains_app_l, Contains_app_r.
  apply concat_In_Contains.
  change (k ++ "=" ++ dquote ++ py_str v ++ dquote) with (attr_token (k, v)).
  unfold attr_tokens. apply in_map, filter_In. split.
  - now apply render_dump_extra.
  - destruct v; [contradiction | reflexivity..].
Qed.

Lemma extra_attribute_written_verbatim_witness :
  Contains ("title" ++ "=" ++ dquote ++ py_str (VStr ("a" ++ dquote ++ "><b")) ++ dquote)
    (render (Node "div" [] None
               [("title", VStr ("a" ++ dquote ++ "><b"))] KComponent)).
Proof.
  apply (extra_attribute_written_verbatim
           (Node "div" [] None [("title", VStr ("a" ++ dquote ++ "><b"))]
              KComponent)
           "title" (VStr ("a" ++ dquote ++ "><b"))).
  - left. reflexivity.
  - discriminate.
  - cbn. intuition discriminate.
Defined.

Lemma concat_empty_app (l1 l2 : list string) :
  String.concat EmptyString (l1 ++ l2)
  = String.concat EmptyString l1 ++ String.concat EmptyString l2.
Proof.
  induction l1 as [|x l1 IH]; [reflexivity|].
  assert (Hcons : forall y l,
             String.concat EmptyString (y :: l)
             = y ++ String.concat EmptyString l).
  { intros y [|z l]; cbn [String.concat].
    - now rewrite append_nil_r.
    - reflexivity. }
  cbn [app]. now rewrite !Hcons, IH, append_assoc.
Qed.

(** X5: [Component.render] splices its children as one run: the output for the
    children [l1 ++ l2] is the opening tag, the joined output of [l1], the
    joined output of [l2], and the closing tag; the children have no part
    in the attributes. *)
Theorem Component_render_children_append (t : string)
    (l1 l2 : list Component) (cn : option string)
    (ex : list (string * value)) :
  render (Node t (l1 ++ l2) cn ex KComponent)
  = "<" ++ t ++ " "
        ++ props_of (model_dump ["children"; "tag"] true
                       (Node t [] cn ex KComponent))
        ++ ">" ++ String.concat EmptyString (map render l1)
        ++ String.concat EmptyString (map render l2) ++ "</" ++ t ++ ">".
Proof.
  cbn [render]. unfold Component_render. cbn [tag].
  rewrite map_app, concat_empty_app, !append_assoc. reflexivity.
Qed.

(** ** Construction *)

Lemma lookup_has_key (k : string) (kw : kwargs) :
  has_key k kw = false -> lookup k kw = None.
Proof.
  unfold has_key. induction kw as [|[k0 v] kw IH]; cbn [existsb lookup fst];
    [reflexivity|].
  intros H. apply orb_false_iff in H as [Hk H]. rewrite Hk. now apply IH.
Qed.

Lemma has_key_In (k : string) (kw : kwargs) :
  ~ In k (map fst kw) -> has_key k kw = false.
Proof.
  intros Hk. unfold has_key.
  destruct (existsb (fun kv => String.eqb k (fst kv)) kw) eqn:E; [|reflexivity].
  apply existsb_exists in E as [[k0 v] [Hin Heq]]. cbn [fst] in Heq.
  apply String.eqb_eq in Heq. subst k0. exfalso. apply Hk.
  apply (in_map fst) in Hin. exact Hin.
Qed.

Lemma BaseModel_init_component (ch : option (list Component)) (data : kwargs)
    (n : Component) :
  BaseModel_init CComponent ch data = Ok n ->
  cls n = KComponent
  /\ children n = match ch with Some l => l | None => [] end.
Proof.
  intros H. unfold BaseModel_init in H.
  apply bind_Ok in H as [t [_ H]]. apply bind_Ok in H as [chs [Hch H]].
  apply bind_Ok in H as [cn [_ H]]. cbn [bind] in H. injection H as <-.
  cbn [cls children]. split; [reflexivity|].
  destruct (lookup "children" data); [discriminate Hch|]. now injection Hch.
Qed.

Lemma BaseModel_init_default_tag (c : class_id) (ch : option (list Component))
    (data : kwargs) (n : Component) :
  lookup "tag" data = None ->
  BaseModel_init c ch data = Ok n -> tag n = default_tag c.
Proof.
  intros Ht H. unfold BaseModel_init in H. rewrite Ht in H. cbn [bind] in H.
  apply bind_Ok in H as [chs [_ H]]. apply bind_Ok in H as [cn [_ H]].
  apply bind_Ok in H as [k [_ H]]. now injection H as <-.
Qed.

(** The model raises nothing but [ValidationError]. *)
Lemma BaseModel_init_Raise (c : class_id) (ch : option (list Component))
    (data : kwargs) (e : error) :
  BaseModel_init c ch data = Raise e -> exists msg, e = ValidationError msg.
Proof.
  unfold BaseModel_init, validate_str, validate_optional_str, validate_int.
  intros H.
  repeat match type of H with
         | context [match ?x with _ => _ end] => destruct x
         end;
    cbn [bind] in H; try discriminate H; injection H as <-; eauto.
Qed.

(** X6: [div(...)] always builds a plain [Component] tagged [div], holding the
    children it was given, so its output begins with [<div ] and ends with
    [</div>]; a call that passes [tag] builds nothing and raises
    [TypeError]. *)
Theorem div_builds_div (ch : option (list Component)) (kw : kwargs) :
  (has_key "tag" kw = true ->
     div ch kw
     = Raise (TypeError "got multiple values for keyword argument 'tag'"))
  /\ (forall n, div ch kw = Ok n ->
        has_key "tag" kw = false
        /\ tag n = "div"
        /\ cls n = KComponent
        /\ children n = match ch with Some l => l | None => [] end
        /\ StartsWith "<div " (render n)
        /\ EndsWith "</div>" (render n)).
Proof.
  unfold div, call_kw. cbn [find fst].
  destruct (has_key "tag" kw) eqn:Htag.
  - split; [reflexivity|]. intros n H. discriminate H.
  - split; [discriminate|]. intros n H. cbn [bind app] in H.
    unfold Component_new in H.
    assert (Ht : tag n = "div").
    { eapply BaseModel_init_tag; [|exact H]. cbn [lookup]. key_eqb. reflexivity. }
    apply BaseModel_init_component in H as [Hk Hch].
    repeat split; try assumption.
    + rewrite render_template, Ht. eexists. cbn [append]. reflexivity.
    + pose proof (render_EndsWith n) as He. now rewrite Ht in He.
Qed.

Lemma div_builds_div_witness :
  div (Some [text_hi]) [("id", VStr "main")]
  = Ok (Node "div" [text_hi] None [("id", VStr "main")] KComponent)
  /\ tag (Node "div" [text_hi] None [("id", VStr "main")] KComponent) = "div"
  /\ div None [("tag", VStr "p")]
     = Raise (TypeError "got multiple values for keyword argument 'tag'").
Proof.
  split; [reflexivity|]. split.
  - apply (proj2 (div_builds_div (Some [text_hi]) [("id", VStr "main")])).
    reflexivity.
  - apply (proj1 (div_builds_div None [("tag", VStr "p")])). reflexivity.
Defined.

(** X7: [text(content, ...)] builds a [Text] only from a string: the
    node it builds holds that string as its content and inner markup, and is
    tagged [span] unless [tag] was passed.  With a [content] that is
    [None], an [int] or a [bool], and no keyword named [self], the call
    raises [ValidationError]; with a keyword named [self] it raises
    [TypeError], whatever the content. *)
Theorem text_needs_str_content (content : value)
    (ch : option (list Component)) (kw : kwargs) :
  (forall n, text content ch kw = Ok n ->
     exists s,
       content = VStr s /\ cls n = KText s /\ inner_html n = s
       /\ (lookup "tag" kw = None -> tag n = "span"))
  /\ (has_key "content" kw = false ->
      has_key "self" kw = false ->
      content = VNone \/ (exists z, content = VInt z)
      \/ (exists b, content = VBool b) ->
      exists msg, text content ch kw = Raise (ValidationError msg))
  /\ (has_key "self" kw = true ->
      exists msg, text content ch kw = Raise (TypeError msg)).
Proof.
  unfold text, call_kw. cbn [find fst].
  destruct (has_key "content" kw) eqn:Hc.
  - split; [intros n H; discriminate H|].
    split; [discriminate | intros _; cbn [bind]; eauto].
  - cbn [bind app]. unfold Text_new.
    destruct (has_key "self" kw) eqn:Hself.
    + assert (Hraise : exists msg,
                Text_init CText ch (("content", content) :: kw)
                = Raise (TypeError msg)).
      { unfold Text_init. cbn [lookup]. key_eqb.
        rewrite has_key_cons, Hself. key_eqb. eauto. }
      destruct Hraise as [msg Hraise]. rewrite Hraise.
      split; [intros n H; discriminate H|].
      split; [discriminate | eauto].
    + rewrite (Text_init_eq _ _ _ content)
        by (first [ cbn [lookup]; key_eqb; reflexivity
                  | rewrite has_key_cons, Hself; key_eqb; reflexivity ]).
      rewrite remove_key_cons. key_eqb.
      split; [|split; [|discriminate]].
      * intros n H.
        pose proof H as Hk.
        apply BaseModel_init_text with (v := content) in Hk;
          [|cbn [lookup]; key_eqb; reflexivity].
        destruct Hk as [s [-> Hk]]. exists s. repeat split; try assumption.
        -- unfold inner_html. now rewrite Hk.
        -- intros Ht. change "span" with (default_tag CText).
           eapply BaseModel_init_default_tag; [|exact H].
           cbn [lookup]. key_eqb.
           rewrite lookup_remove_key_other by discriminate. exact Ht.
      * intros _ _ Hns.
        destruct (BaseModel_init CText ch
                    (("content", content) :: remove_key "content" kw))
          as [n|e] eqn:H.
        -- apply BaseModel_init_text with (v := content) in H;
             [|cbn [lookup]; key_eqb; reflexivity].
           destruct H as [s [-> _]]. exfalso.
           destruct Hns as [Hn | [[z Hz] | [b Hb]]]; discriminate.
        -- apply BaseModel_init_Raise in H as [msg ->]. eauto.
Qed.

Lemma text_needs_str_content_witness :
  (text (VStr "hi") None [] = Ok text_hi
   /\ exists s, VStr "hi" = VStr s /\ cls text_hi = KText s
                /\ inner_html text_hi = s
                /\ (lookup "tag" [] = None -> tag text_hi = "span"))
  /\ (exists msg, text (VInt 5) None [] = Raise (ValidationError msg))
  /\ (exists msg, text (VInt 5) None [("self", VInt 1)] = Raise (TypeError msg)).
Proof.
  split; [|split].
  - split; [reflexivity|].
    apply (proj1 (text_needs_str_content (VStr "hi") None [])). reflexivity.
  - apply (proj1 (proj2 (text_needs_str_content (VInt 5) None []))).
    + reflexivity.
    + reflexivity.
    + right. left. exists 5%Z. reflexivity.
  - apply (proj2 (proj2 (text_needs_str_content (VInt 5) None
                           [("self", VInt 1)]))).
    reflexivity.
Defined.

Lemma filter_all (A : Type) (f : A -> bool) (l : list A) :
  Forall (fun a => f a = true) l -> filter f l = l.
Proof.
  induction 1 as [|a l Ha _ IH]; cbn [filter]; [reflexivity|].
  now rewrite Ha, IH.
Qed.

Lemma map_pair_id (l : list (string * value)) :
  map (fun f => (f_alias f, f_value f))
      (map (fun kv => Field (fst kv) (fst kv) (snd kv)) l) = l.
Proof.
  induction l as [|[k v] l IH]; cbn [map fst snd f_alias f_value];
    [reflexivity | now rewrite IH].
Qed.

(** X8: Keywords that are not names of declared fields become attributes, in
    the order they were written: [Component(...)] called with such
    keywords only succeeds, keeps them as its extras unchanged, and renders
    [<div props>children</div>] with [props] listing the keywords that have
    a value, in call order. *)
Theorem Component_new_keeps_keyword_order (ch : option (list Component))
    (args : kwargs) :
  Forall (fun kv => ~ In (fst kv) ["tag"; "children"; "class"; "class_name"])
         args ->
  let chs := match ch with Some l => l | None => [] end in
  Component_new ch args = Ok (Node "div" chs None args KComponent)
  /\ render_dump (Node "div" chs None args KComponent)
     = ("class", VNone) :: args
  /\ render (Node "div" chs None args KComponent)
     = "<div " ++ props_of args ++ ">"
         ++ String.concat EmptyString (map render chs) ++ "</div>".
Proof.
  intros Hargs chs.
  assert (Hno : forall k, In k ["tag"; "children"; "class"; "class_name"] ->
                          has_key k args = false).
  { intros k Hk. apply has_key_In. intros Hin.
    apply in_map_iff in Hin as [kv [<- Hkv]].
    rewrite Forall_forall in Hargs. exact (Hargs kv Hkv Hk). }
  assert (Hdump : render_dump (Node "div" chs None args KComponent)
                  = ("class", VNone) :: args).
  { unfold render_dump, model_dump, model_fields.
    cbn [cls tag class_name extra app filter excluded existsb f_name negb
         value_of_option].
    key_eqb. cbn [map f_alias f_value]. f_equal.
    rewrite filter_all; [apply map_pair_id|].
    apply Forall_forall. intros f Hf. apply in_map_iff in Hf as [kv [<- Hkv]].
    cbn [f_name]. rewrite Forall_forall in Hargs. specialize (Hargs kv Hkv).
    assert (Hc : fst kv <> "children")
      by (intros e; apply Hargs; rewrite e; cbn; intuition).
    assert (Ht : fst kv <> "tag")
      by (intros e; apply Hargs; rewrite e; cbn; intuition).
    apply String.eqb_neq in Hc, Ht. unfold excluded. cbn [existsb f_name].
    now rewrite Hc, Ht. }
  split; [|split].
  - unfold Component_new, BaseModel_init, used_keys, class_key.
    rewrite (lookup_has_key "tag"), (lookup_has_key "children")
      by (apply Hno; cbn; intuition).
    rewrite (Hno "class"), (Hno "class_name") by (cbn; intuition).
    cbn [bind app]. do 2 f_equal.
    apply filter_all, Forall_forall. intros kv Hkv.
    rewrite Forall_forall in Hargs. specialize (Hargs kv Hkv).
    assert (Hc : fst kv <> "children")
      by (intros e; apply Hargs; rewrite e; cbn; intuition).
    assert (Ht : fst kv <> "tag")
      by (intros e; apply Hargs; rewrite e; cbn; intuition).
    apply String.eqb_neq in Hc, Ht. cbn [existsb].
    now rewrite Hc, Ht.
  - exact Hdump.
  - rewrite render_template, Hdump. reflexivity.
Qed.

Lemma Component_new_keeps_keyword_order_witness :
  Component_new None [("id", VStr "main"); ("hidden", VNone); ("data", VInt 7)]
  = Ok (Node "div" [] None
          [("id", VStr "main"); ("hidden", VNone); ("data", VInt 7)] KComponent)
  /\ render (Node "div" [] None
               [("id", VStr "main"); ("hidden", VNone); ("data", VInt 7)]
               KComponent)
     = "<div " ++ attr "id" "main" ++ " " ++ attr "data" "7" ++ "></div>".
Proof.
  destruct (Component_new_keeps_keyword_order None
              [("id", VStr "main"); ("hidden", VNone); ("data", VInt 7)])
    as [Hnew [_ Hrender]].
  - repeat constructor; cbn; intuition discriminate.
  - split; [exact Hnew | exact Hrender].
Defined.

Lemma Heading_new_level_attribute_witness :
  Heading_new None [("content", VStr "x"); ("level", VInt 5)]
  = Ok (Node "h5" [] None [] (KHeading "x" 1))
  /\ Contains (attr "level" "1") (render (Node "h5" [] None [] (KHeading "x" 1))).
Proof.
  split; [reflexivity|].
  apply (Heading_new_level_attribute None
           [("content", VStr "x"); ("level", VInt 5)]).
  reflexivity.
Defined.

(** ** The alias of [class_name] *)

Lemma lookup_insert_other (k k' : string) (v : value) (l1 l2 : kwargs) :
  k <> k' -> lookup k (l1 ++ (k', v) :: l2)%list = lookup k (l1 ++ l2)%list.
Proof.
  intros Hk. apply String.eqb_neq in Hk.
  induction l1 as [|[k0 v0] l1 IH]; cbn [app lookup].
  - now rewrite Hk.
  - now rewrite IH.
Qed.

Lemma has_key_app (k : string) (l1 l2 : kwargs) :
  has_key k (l1 ++ l2)%list = has_key k l1 || has_key k l2.
Proof. unfold has_key. apply existsb_app. Qed.

Lemma lookup_insert_same (k : string) (v : value) (l1 l2 : kwargs) :
  has_key k l1 = false -> lookup k (l1 ++ (k, v) :: l2)%list = Some v.
Proof.
  unfold has_key.
  induction l1 as [|[k0 v0] l1 IH]; cbn [app lookup existsb fst]; intros H.
  - now rewrite String.eqb_refl.
  - apply orb_false_iff in H as [Hk H]. rewrite Hk. now apply IH.
Qed.

Lemma has_key_insert (k k' : string) (v : value) (l1 l2 : kwargs) :
  has_key k (l1 ++ (k', v) :: l2)%list
  = String.eqb k k' || has_key k (l1 ++ l2)%list.
Proof.
  rewrite !has_key_app. unfold has_key at 2. cbn [existsb fst].
  fold (has_key k l2).
  destruct (has_key k l1), (String.eqb k k'), (has_key k l2); reflexivity.
Qed.

(** The model reads its keywords through these lookups only. *)
Lemma BaseModel_init_ext (c : class_id) (ch : option (list Component))
    (d1 d2 : kwargs) :
  lookup "tag" d1 = lookup "tag" d2 ->
  lookup "children" d1 = lookup "children" d2 ->
  match class_key d1 with Some k => lookup k d1 | None => None end
  = match class_key d2 with Some k => lookup k d2 | None => None end ->
  lookup "content" d1 = lookup "content" d2 ->
  lookup "level" d1 = lookup "level" d2 ->
  filter (fun kv => negb (existsb (String.eqb (fst kv)) (used_keys c d1))) d1
  = filter (fun kv => negb (existsb (String.eqb (fst kv)) (used_keys c d2))) d2 ->
  BaseModel_init c ch d1 = BaseModel_init c ch d2.
Proof.
  intros Ht Hch Hcn Hc Hl Hex. unfold BaseModel_init.
  assert (Hcls : forall d,
    match class_key d with
    | Some k =>
        match lookup k d with
        | Some v => validate_optional_str "class" v
        | None => Ok None
        end
    | None => Ok None
    end
    = match match class_key d with Some k => lookup k d | None => None end with
      | Some v => validate_optional_str "class" v
      | None => Ok None
      end) by (intros d; destruct (class_key d); reflexivity).
  rewrite !Hcls, Ht, Hch, Hcn, Hc, Hl, Hex. reflexivity.
Qed.

Lemma used_keys_filter_insert (c : class_id) (ck : string) (v : value)
    (l1 l2 : kwargs) :
  has_key ck (l1 ++ l2)%list = false ->
  class_key (l1 ++ (ck, v) :: l2)%list = Some ck ->
  filter (fun kv => negb (existsb (String.eqb (fst kv))
                            (used_keys c (l1 ++ (ck, v) :: l2)%list)))
         (l1 ++ (ck, v) :: l2)%list
  = filter (fun kv => negb (existsb (String.eqb (fst kv))
                              (["tag"; "children"]
                               ++ match c with
                                  | CComponent => []
                                  | CText => ["content"]
                                  | CHeading => ["content"; "level"]
                                  end)%list))
           (l1 ++ l2)%list.
Proof.
  intros Hno Hck. unfold used_keys. rewrite Hck.
  set (cs := match c with
             | CComponent => []
             | CText => ["content"]
             | CHeading => ["content"; "level"]
             end).
  assert (Hsame : forall l, has_key ck l = false ->
    filter (fun kv => negb (existsb (String.eqb (fst kv))
                              (["tag"; "children"] ++ [ck] ++ cs)%list)) l
    = filter (fun kv => negb (existsb (String.eqb (fst kv))
                                (["tag"; "children"] ++ cs)%list)) l).
  { intros l Hl. apply filter_ext_in. intros [k0 v0] Hin. cbn [fst].
    assert (Hne : String.eqb k0 ck = false).
    { apply String.eqb_neq. intros ->.
      assert (has_key ck l = true); [|congruence].
      apply existsb_exists. exists (ck, v0). split; [exact Hin|].
      apply String.eqb_refl. }
    cbn [app existsb]. now rewrite Hne. }
  rewrite has_key_app in Hno. apply orb_false_iff in Hno as [Hno1 Hno2].
  rewrite !filter_app. cbn [filter fst app existsb].
  rewrite String.eqb_refl, !orb_true_r. cbn [negb].
  f_equal; apply Hsame; assumption.
Qed.

Lemma BaseModel_init_class_keyword (c : class_id)
    (ch : option (list Component)) (l1 l2 : kwargs) (v : value) :
  has_key "class" (l1 ++ l2)%list = false ->
  has_key "class_name" (l1 ++ l2)%list = false ->
  BaseModel_init c ch (l1 ++ ("class_name", v) :: l2)%list
  = BaseModel_init c ch (l1 ++ ("class", v) :: l2)%list.
Proof.
  intros Hc Hn.
  assert (Hc1 : has_key "class" l1 = false)
    by (rewrite has_key_app in Hc; now apply orb_false_iff in Hc).
  assert (Hn1 : has_key "class_name" l1 = false)
    by (rewrite has_key_app in Hn; now apply orb_false_iff in Hn).
  assert (Hk1 : class_key (l1 ++ ("class_name", v) :: l2)%list
                = Some "class_name").
  { unfold class_key. rewrite !has_key_insert, Hc, Hn. reflexivity. }
  assert (Hk2 : class_key (l1 ++ ("class", v) :: l2)%list = Some "class").
  { unfold class_key. rewrite !has_key_insert, Hc. reflexivity. }
  apply BaseModel_init_ext.
  - now rewrite !lookup_insert_other by discriminate.
  - now rewrite !lookup_insert_other by discriminate.
  - rewrite Hk1, Hk2. now rewrite !lookup_insert_same.
  - now rewrite !lookup_insert_other by discriminate.
  - now rewrite !lookup_insert_other by discriminate.
  - rewrite (used_keys_filter_insert c "class_name" v l1 l2 Hn Hk1).
    now rewrite (used_keys_filter_insert c "class" v l1 l2 Hc Hk2).
Qed.

Lemma remove_key_app (k : string) (l1 l2 : kwargs) :
  remove_key k (l1 ++ l2)%list = (remove_key k l1 ++ remove_key k l2)%list.
Proof. unfold remove_key. apply filter_app. Qed.

(** X9: With [populate_by_name=True], the class attribute can be passed under
    its field name or under its alias: where a call has neither keyword,
    adding [class_name=v] or [class=v] at the same place builds the same
    [Component] and the same [Text], or fails the same way. *)
Theorem class_name_and_class_keywords_agree (ch : option (list Component))
    (l1 l2 : kwargs) (v : value) :
  has_key "class" (l1 ++ l2)%list = false ->
  has_key "class_name" (l1 ++ l2)%list = false ->
  Component_new ch (l1 ++ ("class_name", v) :: l2)%list
  = Component_new ch (l1 ++ ("class", v) :: l2)%list
  /\ Text_new ch (l1 ++ ("class_name", v) :: l2)%list
     = Text_new ch (l1 ++ ("class", v) :: l2)%list.
Proof.
  intros Hc Hn. split.
  - now apply BaseModel_init_class_keyword.
  - unfold Text_new.
    destruct (lookup "content" (l1 ++ l2)%list) as [content|] eqn:Hcontent.
    + destruct (has_key "self" (l1 ++ l2)%list) eqn:Hself.
      { unfold Text_init.
        rewrite !lookup_insert_other, Hcontent by discriminate.
        rewrite !has_key_insert, Hself. key_eqb. reflexivity. }
      rewrite !(Text_init_eq _ _ _ content)
        by (first [ rewrite lookup_insert_other by discriminate; exact Hcontent
                  | rewrite has_key_insert, Hself; key_eqb; reflexivity ]).
      rewrite !remove_key_app, !remove_key_cons. key_eqb.
      apply (BaseModel_init_class_keyword CText ch
               (("content", content) :: remove_key "content" l1)
               (remove_key "content" l2) v).
      * cbn [app]. unfold has_key at 1. cbn [existsb fst]. key_eqb.
        fold (has_key "class" (remove_key "content" l1 ++ remove_key "content" l2)%list).
        rewrite <- remove_key_app, has_key_remove_key, Hc. reflexivity.
      * cbn [app]. unfold has_key at 1. cbn [existsb fst]. key_eqb.
        fold (has_key "class_name" (remove_key "content" l1 ++ remove_key "content" l2)%list).
        rewrite <- remove_key_app, has_key_remove_key, Hn. reflexivity.
    + unfold Text_init.
      now rewrite !lookup_insert_other, Hcontent by discriminate.
Qed.

Lemma class_name_and_class_keywords_agree_witness :
  Component_new None ([("id", VStr "a")] ++ ("class_name", VStr "x") :: [])%list
  = Component_new None ([("id", VStr "a")] ++ ("class", VStr "x") :: [])%list.
Proof.
  apply (proj1 (class_name_and_class_keywords_agree None
                  [("id", VStr "a")] [] (VStr "x") eq_refl eq_refl)).
Defined.

(** * The development server and the build command *)

(** ** Replacement *)

Lemma containsb_unfold (sub s : string) :
  containsb sub s
  = String.prefix sub s
    || match s with
       | EmptyString => false
       | String _ s' => containsb sub s'
       end.
Proof. destruct s; reflexivity. Qed.

Lemma length_app (a b : string) :
  String.length (a ++ b) = String.length a + String.length b.
Proof. induction a as [|c a IH]; cbn [append String.length]; lia. Qed.

Lemma prefix_length (p s : string) :
  String.prefix p s = true -> String.length p <= String.length s.
Proof.
  intros H. apply prefix_StartsWith in H as [b ->]. rewrite length_app. lia.
Qed.

Lemma prefix_refl (p : string) : String.prefix p p = true.
Proof.
  apply prefix_StartsWith. exists EmptyString. now rewrite append_nil_r.
Qed.

Lemma prefix_app_long (p x y : string) :
  String.length p <= String.length x ->
  String.prefix p (x ++ y) = String.prefix p x.
Proof.
  revert x. induction p as [|c p IH]; intros x Hlen.
  - destruct x, y; reflexivity.
  - destruct x as [|d x]; cbn [String.length] in Hlen; [lia|].
    cbn [append String.prefix]. destruct (ascii_dec c d); [|reflexivity].
    apply IH. lia.
Qed.

Lemma containsb_false_suffix (sub a s : string) :
  containsb sub (a ++ s) = false -> String.prefix sub s = false.
Proof.
  induction a as [|c a IH]; cbn [append]; rewrite containsb_unfold; intros H;
    apply orb_false_iff in H as [H1 H2].
  - exact H1.
  - now apply IH.
Qed.

Lemma replace_from_skip_all (old new s : string) (k : nat) :
  String.length s <= k -> replace_from k old new s = EmptyString.
Proof.
  revert k. induction s as [|c s IH]; intros k Hk; [reflexivity|].
  cbn [String.length] in Hk. destruct k as [|k]; [lia|].
  cbn [replace_from]. apply IH. lia.
Qed.

(** [replace] leaves a string without occurrence as it is. *)
Lemma replace_from_absent (old new s : string) :
  containsb old s = false -> replace_from 0 old new s = s.
Proof.
  induction s as [|c s IH]; [reflexivity|].
  rewrite containsb_unfold. intros H. apply orb_false_iff in H as [H1 H2].
  cbn [replace_from]. rewrite H1. now rewrite IH.
Qed.

(** Where there is an occurrence, the output of [replace] holds [new]. *)
Lemma replace_from_Contains (old new s : string) :
  old <> EmptyString ->
  containsb old s = true -> Contains new (replace_from 0 old new s).
Proof.
  intros Hold. induction s as [|c s IH]; rewrite containsb_unfold; intros H.
  - rewrite orb_false_r in H. destruct old; [contradiction | discriminate H].
  - cbn [replace_from]. destruct (String.prefix old (String c s)) eqn:Hp.
    + exists EmptyString, (replace_from (String.length old - 1) old new s).
      reflexivity.
    + cbn [orb] in H. destruct (IH H) as [a [b Hab]].
      exists (String c a), b. cbn [append]. now rewrite Hab.
Qed.

(** An occurrence at the very end, the only one: [new] takes its place. *)
Lemma replace_from_last (old new a : string) :
  old <> EmptyString ->
  (forall a1 a2, a = a1 ++ a2 -> a2 <> EmptyString ->
                 String.prefix old (a2 ++ old) = false) ->
  replace_from 0 old new (a ++ old) = a ++ new.
Proof.
  intros Hold. induction a as [|c a IH]; intros Hfirst.
  - cbn [append]. destruct old as [|d o]; [contradiction|].
    cbn [replace_from]. rewrite prefix_refl.
    rewrite replace_from_skip_all by (cbn [String.length]; lia).
    apply append_nil_r.
  - assert (Hp : String.prefix old (String c a ++ old) = false)
      by (apply (Hfirst EmptyString (String c a) eq_refl); discriminate).
    cbn [append] in Hp |- *. cbn [replace_from]. rewrite Hp.
    f_equal. apply IH. intros a1 a2 -> Hne.
    apply (Hfirst (String c a1) a2); [reflexivity | exact Hne].
Qed.

(** The scan of [replace] and the scan of [count] agree: every occurrence
    counted trades [old] for [new]. *)
Lemma replace_from_length (old new s : string) (k : nat) :
  old <> EmptyString ->
  String.length (replace_from k old new s)
    + count_from k old s * String.length old + Nat.min k (String.length s)
  = String.length s + count_from k old s * String.length new.
Proof.
  intros Hold. revert k. induction s as [|c s IH]; intros k.
  - cbn. lia.
  - destruct k as [|k]; cbn [replace_from count_from].
    + destruct (String.prefix old (String c s)) eqn:Hp.
      * apply prefix_length in Hp. cbn [String.length] in Hp.
        specialize (IH (String.length old - 1)).
        rewrite length_app. cbn [String.length].
        assert (0 < String.length old) by (destruct old; [contradiction | cbn; lia]).
        rewrite Nat.min_l in IH by lia. cbn [Nat.min]. lia.
      * specialize (IH 0). cbn [String.length Nat.min] in *. lia.
    + specialize (IH k). cbn [String.length Nat.min]. lia.
Qed.

Lemma count_from_present (old s : string) :
  old <> EmptyString -> containsb old s = true -> 1 <= count_from 0 old s.
Proof.
  intros Hold. induction s as [|c s IH]; rewrite containsb_unfold; intros H.
  - rewrite orb_false_r in H. destruct old; [contradiction | discriminate H].
  - cbn [count_from]. destruct (String.prefix old (String c s)); [lia|].
    now apply IH.
Qed.

(** ** The reload script in the page *)

Lemma replace_nonempty (c : ascii) (o new s : string) :
  replace (String c o) new s = replace_from 0 (String c o) new s.
Proof. reflexivity. Qed.

Lemma Contains_prefix_part (x y s : string) :
  Contains (x ++ y) s -> Contains x s.
Proof.
  intros [a [b ->]]. exists a, (y ++ b). now rewrite append_assoc.
Qed.

Lemma inject_autoreload_Contains (html : string) :
  Contains SCRIPT_AUTORELOAD (inject_autoreload html).
Proof.
  unfold inject_autoreload. destruct (containsb "</body>" html) eqn:Hb.
  - rewrite replace_nonempty.
    apply (Contains_prefix_part _ "</body>").
    apply replace_from_Contains; [discriminate | exact Hb].
  - exists html, EmptyString. now rewrite append_nil_r.
Qed.

(** X10: Whatever the page, what [homepage] sends for it holds the reload
    script, also when the page has no [</body>] to put it before. *)
Theorem inject_autoreload_has_script (html : string) :
  Contains SCRIPT_AUTORELOAD (inject_autoreload html)
  /\ (containsb "</body>" html = true ->
      Contains (SCRIPT_AUTORELOAD ++ "</body>") (inject_autoreload html)).
Proof.
  split; [apply inject_autoreload_Contains|].
  intros Hb. unfold inject_autoreload. rewrite Hb, replace_nonempty.
  apply replace_from_Contains; [discriminate | exact Hb].
Qed.

Lemma inject_autoreload_has_script_witness :
  Contains (SCRIPT_AUTORELOAD ++ "</body>")
    (inject_autoreload "<body >a</body><!-- </body> -->").
Proof.
  apply (proj2 (inject_autoreload_has_script "<body >a</body><!-- </body> -->")).
  vm_compute. reflexivity.
Defined.

(** X11: Where the script goes: after the page when the page has no [</body>],
    and right before [</body>] when the page ends with [</body>] and has no
    other occurrence of it. *)
Theorem inject_autoreload_position (html : string) :
  (containsb "</body>" html = false ->
     inject_autoreload html = html ++ SCRIPT_AUTORELOAD)
  /\ (forall a, html = a ++ "</body>" ->
        containsb "</body>" (a ++ "</body") = false ->
        inject_autoreload html = a ++ SCRIPT_AUTORELOAD ++ "</body>").
Proof.
  split.
  - intros Hb. unfold inject_autoreload. now rewrite Hb.
  - intros a -> Hone. unfold inject_autoreload.
    assert (Hb : containsb "</body>" (a ++ "</body>") = true).
    { apply containsb_Contains. exists a, EmptyString. reflexivity. }
    rewrite Hb, replace_nonempty.
    apply replace_from_last; [discriminate|].
    intros a1 a2 -> Hne.
    assert (Hsplit : a2 ++ "</body>" = (a2 ++ "</body") ++ ">")
      by (now rewrite append_assoc).
    rewrite Hsplit, prefix_app_long.
    + apply (containsb_false_suffix _ a1). now rewrite <- append_assoc.
    + rewrite length_app. destruct a2; [contradiction|].
      cbn [String.length]. lia.
Qed.

Lemma inject_autoreload_position_witness :
  inject_autoreload "<p >hi</p>" = "<p >hi</p>" ++ SCRIPT_AUTORELOAD
  /\ inject_autoreload ("<body ><p >hi</p>" ++ "</body>")
     = "<body ><p >hi</p>" ++ SCRIPT_AUTORELOAD ++ "</body>".
Proof.
  split.
  - apply (proj1 (inject_autoreload_position "<p >hi</p>")).
    vm_compute. reflexivity.
  - apply (proj2 (inject_autoreload_position
                    ("<body ><p >hi</p>" ++ "</body>"))
             "<body ><p >hi</p>").
    + reflexivity.
    + vm_compute. reflexivity.
Defined.

(** X12: The page grows by one copy of the script for each [</body>] in it, as
    [replace] replaces every occurrence, and by one copy when there is
    none. *)
Theorem inject_autoreload_length (html : string) :
  String.length (inject_autoreload html)
  = String.length html
    + Nat.max 1 (count_from 0 "</body>" html) * String.length SCRIPT_AUTORELOAD.
Proof.
  unfold inject_autoreload. destruct (containsb "</body>" html) eqn:Hb.
  - pose proof (count_from_present "</body>" html) as Hc.
    specialize (Hc ltac:(discriminate) Hb).
    rewrite Nat.max_r by exact Hc.
    rewrite replace_nonempty.
    pose proof (replace_from_length "</body>"
                  (SCRIPT_AUTORELOAD ++ "</body>") html 0) as Hl.
    specialize (Hl ltac:(discriminate)).
    rewrite length_app in Hl. cbn [Nat.min] in Hl. lia.
  - assert (Hc : count_from 0 "</body>" html = 0).
    { clear - Hb. induction html as [|c s IH]; [reflexivity|].
      rewrite containsb_unfold in Hb. apply orb_false_iff in Hb as [H1 H2].
      cbn [count_from]. rewrite H1. now apply IH. }
    rewrite Hc, length_app. cbn [Nat.max]. lia.
Qed.

(** ** Responses *)





(** ** The interpreter state *)

Lemma mem_In (x : string) (l : list string) : mem x l = true <-> In x l.
Proof.
  unfold mem. rewrite existsb_exists. split.
  - intros [y [Hy Heq]]. apply String.eqb_eq in Heq. now subst y.
  - intros Hx. exists x. split; [exact Hx | apply String.eqb_refl].
Qed.

Lemma mem_not_In (x : string) (l : list string) : mem x l = false <-> ~ In x l.
Proof.
  rewrite <- mem_In. destruct (mem x l); split; congruence.
Qed.

Lemma get_user_module_sys_path_eq (f : app_file) (env : import_env)
    (st : interpreter) :
  sys_path (snd (get_user_module f env st))
  = if mem (parent_dir f) (sys_path st) then sys_path st
    else parent_dir f :: sys_path st.
Proof.
  unfold get_user_module.
  destruct (mem (stem f) (sys_modules st)), (spec_found env); reflexivity.
Qed.

(** X14: [get_user_module] puts the directory of the file on [sys.path] once:
    afterwards the directory is on it; a [sys.path] that already had it is
    left as it was, one that had not gains it at the front; and a
    [sys.path] without repetitions stays so.  This holds whether the import
    succeeds or raises. *)
Theorem get_user_module_sys_path (f : app_file) (env : import_env)
    (st : interpreter) :
  let st' := snd (get_user_module f env st) in
  In (parent_dir f) (sys_path st')
  /\ (In (parent_dir f) (sys_path st) -> sys_path st' = sys_path st)
  /\ (~ In (parent_dir f) (sys_path st) ->
      sys_path st' = parent_dir f :: sys_path st)
  /\ (NoDup (sys_path st) -> NoDup (sys_path st')).
Proof.
  cbv zeta. rewrite get_user_module_sys_path_eq.
  destruct (mem (parent_dir f) (sys_path st)) eqn:Hm.
  - apply mem_In in Hm. repeat split; auto. intros Hn. contradiction.
  - apply mem_not_In in Hm. repeat split.
    + now left.
    + intros Hin. contradiction.
    + intros Hnd. now constructor.
Qed.

Lemma get_user_module_sys_path_witness :
  sys_path (snd (get_user_module (AppFile "site/app.py" "app" "/home/u/site")
                   (ImportEnv false (Raised (Exception "SyntaxError" "bad")))
                   (Interpreter ["/usr/lib/python3"] ["sys"])))
  = ["/home/u/site"; "/usr/lib/python3"]
  /\ sys_path (snd (get_user_module (AppFile "site/app.py" "app" "/home/u/site")
                      (ImportEnv true (Returned (UserModule None)))
                      (Interpreter ["/usr/lib/python3"; "/home/u/site"] [])))
     = ["/usr/lib/python3"; "/home/u/site"]
  /\ NoDup (sys_path
              (snd (get_user_module (AppFile "site/app.py" "app" "/home/u/site")
                      (ImportEnv true (Returned (UserModule None)))
                      (Interpreter ["/usr/lib/python3"] [])))).
Proof.
  split; [|split].
  - apply (proj1 (proj2 (proj2
            (get_user_module_sys_path
               (AppFile "site/app.py" "app" "/home/u/site")
               (ImportEnv false (Raised (Exception "SyntaxError" "bad")))
               (Interpreter ["/usr/lib/python3"] ["sys"]))))).
    cbn. intuition discriminate.
  - apply (proj1 (proj2
            (get_user_module_sys_path
               (AppFile "site/app.py" "app" "/home/u/site")
               (ImportEnv true (Returned (UserModule None)))
               (Interpreter ["/usr/lib/python3"; "/home/u/site"] [])))).
    cbn. intuition.
  - apply (proj2 (proj2 (proj2
            (get_user_module_sys_path
               (AppFile "site/app.py" "app" "/home/u/site")
               (ImportEnv true (Returned (UserModule None)))
               (Interpreter ["/usr/lib/python3"] []))))).
    repeat constructor. cbn. intuition.
Defined.

(** X15: The module is registered in [sys.modules] before its body runs: once a
    loader was found, the name is in [sys.modules] even if executing the
    module raised, and from then on every call reloads, gives back what the
    reload gives, without looking for a loader again, and leaves
    [sys.path] and [sys.modules] as they are. *)
Theorem get_user_module_then_reloads (f : app_file) (env : import_env)
    (st : interpreter) :
  spec_found env = true ->
  let st' := snd (get_user_module f env st) in
  fst (get_user_module f env st) = run env
  /\ In (stem f) (sys_modules st')
  /\ forall env2, get_user_module f env2 st' = (run env2, st').
Proof.
  intros Hspec. cbv zeta.
  set (sp := if mem (parent_dir f) (sys_path st) then sys_path st
             else parent_dir f :: sys_path st).
  set (sm := if mem (stem f) (sys_modules st) then sys_modules st
             else stem f :: sys_modules st).
  assert (Hfirst : get_user_module f env st = (run env, Interpreter sp sm)).
  { unfold get_user_module. rewrite Hspec. subst sm.
    now destruct (mem (stem f) (sys_modules st)). }
  assert (Hsp : mem (parent_dir f) sp = true).
  { subst sp. destruct (mem (parent_dir f) (sys_path st)) eqn:Hm;
      [exact Hm|]. apply mem_In. now left. }
  assert (Hsm : mem (stem f) sm = true).
  { subst sm. destruct (mem (stem f) (sys_modules st)) eqn:Hm;
      [exact Hm|]. apply mem_In. now left. }
  rewrite Hfirst. cbn [fst snd sys_modules].
  split; [reflexivity|]. split; [now apply mem_In|].
  intros env2. unfold get_user_module. cbn [sys_path sys_modules].
  now rewrite Hsp, Hsm.
Qed.

Lemma get_user_module_then_reloads_witness :
  In "app"
     (sys_modules
        (snd (get_user_module (AppFile "site/app.py" "app" "/home/u/site")
                (ImportEnv true (Raised (Exception "SyntaxError" "bad")))
                (Interpreter [] []))))
  /\ get_user_module (AppFile "site/app.py" "app" "/home/u/site")
       (ImportEnv false (Returned (UserModule None)))
       (snd (get_user_module (AppFile "site/app.py" "app" "/home/u/site")
               (ImportEnv true (Raised (Exception "SyntaxError" "bad")))
               (Interpreter [] [])))
     = (Returned (UserModule None),
        snd (get_user_module (AppFile "site/app.py" "app" "/home/u/site")
               (ImportEnv true (Raised (Exception "SyntaxError" "bad")))
               (Interpreter [] []))).
Proof.
  destruct (get_user_module_then_reloads
              (AppFile "site/app.py" "app" "/home/u/site")
              (ImportEnv true (Raised (Exception "SyntaxError" "bad")))
              (Interpreter [] []) eq_refl) as [_ [Hin Hnext]].
  split; [exact Hin|]. apply Hnext.
Defined.







(** X17: [load_user_app] does not look whether the directory of the file
    is on [sys.path] already: each call on an existing file puts it in
    front again, so a [sys.path] that had it holds it twice afterwards; and
    the module is not registered in [sys.modules]. *)
Theorem load_user_app_prepends_again (f : app_file) (env : import_env)
    (st : interpreter) :
  let st' := snd (load_user_app f true env st) in
  sys_path st' = parent_dir f :: sys_path st
  /\ sys_modules st' = sys_modules st
  /\ (In (parent_dir f) (sys_path st) -> ~ NoDup (sys_path st')).
Proof.
  cbv zeta. unfold load_user_app. cbn [negb].
  destruct (spec_found env); cbn [snd sys_path sys_modules];
    (split; [reflexivity|]; split; [reflexivity|];
     intros Hin Hnd; inversion Hnd; contradiction).
Qed.

Lemma load_user_app_prepends_again_witness :
  ~ NoDup (sys_path (snd (load_user_app
                            (AppFile "site/app.py" "app" "/home/u/site")
                            true (ImportEnv true (Returned (UserModule None)))
                            (Interpreter ["/home/u/site"] [])))).
Proof.
  apply (proj2 (proj2
          (load_user_app_prepends_again
             (AppFile "site/app.py" "app" "/home/u/site")
             (ImportEnv true (Returned (UserModule None)))
             (Interpreter ["/home/u/site"] [])))).
  left. reflexivity.
Defined.

(** ** Build and serve *)


